(** * The aws_ec2_instance_state resource: lifecycle hooks and reconciliation

    A shallow embedding of [internal/service/ec2/ec2_instance_state.go].

    The hooks are Go functions that mutate one [*schema.ResourceData], call a
    handful of EC2 collaborators through a client handle and may panic (nil
    dereference, failed type assertion).  They are embedded in a small monad
    that threads an environment (the resource data, the remote world, the
    ordered record of collaborator calls, the log) and returns either a value
    or a panic. *)

From Stdlib Require Import ZArith String List Bool Lia.
From stdpp Require Import gmap strings list.
Import ListNotations.

Local Open Scope Z_scope.
Local Open Scope string_scope.
Local Open Scope list_scope.

(** ** Go values used by the resource *)

(** [time.Duration]: a signed 64-bit count of nanoseconds. *)
Abbreviation Duration := Z (only parsing).

Module time.
Definition Nanosecond : Duration := 1.
Definition Microsecond : Duration := 1000 * Nanosecond.
Definition Millisecond : Duration := 1000 * Microsecond.
Definition Second : Duration := 1000 * Millisecond.
Definition Minute : Duration := 60 * Second.
End time.

(** Go's [error] values.  Only two observations are ever made on an error by
    the hooks: its text and whether it is the not-found condition. *)
Record error := mkError { err_text : string; err_notFound : bool }.

#[global] Instance error_eq_dec : EqDecision error.
Proof. solve_decision. Defined.

Module tfresource.
(** Modelled from the spec: [tfresource.NotFound] is not among the sources;
    the spec describes the lookup as "returning not-found as a distinct
    condition".  An error carries a flag saying whether it is that condition,
    and a nil error is never not-found. *)
Definition NotFound (err : option error) : bool :=
  match err with
  | Some e => err_notFound e
  | None => false
  end.
End tfresource.

(** [awstypes.InstanceState] and [awstypes.Instance], restricted to the fields
    the hooks read.  Pointer-typed fields are options; [None] is Go's nil. *)
Record InstanceState := mkInstanceState { Name : string }.

Record Instance := mkInstance {
  InstanceId : option string;
  State : option InstanceState
}.

Module aws.
(** [aws.ToString]: the pointed-to string, or the empty string for nil. *)
Definition ToString (p : option string) : string :=
  match p with
  | Some s => s
  | None => ""
  end.
End aws.

(** ** Diagnostics *)

Inductive Severity := SeverityError | SeverityWarning.

(** The summary of a diagnostic, kept structured instead of formatted: either
    the standard "problem" message of [create.AppendDiagError] or the text of
    an error passed to [sdkdiag.AppendFromErr]. *)
Inductive Summary :=
| ProblemStandardMessage (service action resource id : string) (gotError : error)
| FromErr (err : error).

Record Diagnostic := mkDiagnostic {
  diag_Severity : Severity;
  diag_Summary : Summary
}.

Abbreviation Diagnostics := (list Diagnostic) (only parsing).

Module create.
(** Modelled from the spec: [create.AppendDiagError] is not among the
    sources; the spec says such failures are "surfaced to the engine as a
    blocking diagnostic".  It appends one error-severity diagnostic. *)
Definition AppendDiagError (diags : Diagnostics)
    (service action resource id : string) (gotError : error) : Diagnostics :=
  diags ++ [mkDiagnostic SeverityError
              (ProblemStandardMessage service action resource id gotError)].
End create.

Module sdkdiag.
(** Modelled from the spec: [sdkdiag.AppendFromErr] is not among the
    sources; a transition error is "surfaced as a blocking diagnostic". *)
Definition AppendFromErr (diags : Diagnostics) (err : option error) : Diagnostics :=
  match err with
  | Some e => diags ++ [mkDiagnostic SeverityError (FromErr e)]
  | None => diags
  end.
End sdkdiag.

Definition HasError (diags : Diagnostics) : bool :=
  existsb (fun dg => match diag_Severity dg with
                     | SeverityError => true
                     | SeverityWarning => false
                     end) diags.

(** ** [schema.ResourceData] *)

(** Attribute values are dynamically typed ([interface{}]) in the plugin SDK. *)
Inductive Value := VString (s : string) | VBool (b : bool).

#[global] Instance Value_eq_dec : EqDecision Value.
Proof. solve_decision. Defined.

Record ResourceTimeout := mkResourceTimeout {
  Create : option Duration;
  Read : option Duration;
  Update : option Duration;
  Delete : option Duration;
  Default : option Duration
}.

(** The resource data seen by a hook: the identity, the new-resource mark, the
    attribute values at the three reader levels the hooks touch (prior state,
    planned values, values written with [Set]) and the configured timeouts. *)
Record ResourceData := mkResourceData {
  rd_id : string;
  rd_isNew : bool;
  rd_state : gmap string Value;
  rd_planned : gmap string Value;
  rd_set : gmap string Value;
  rd_timeouts : option ResourceTimeout
}.

Module schema.
Definition TimeoutCreate := "create".
Definition TimeoutRead := "read".
Definition TimeoutUpdate := "update".
Definition TimeoutDelete := "delete".
Definition TimeoutDefault := "default".

Definition DefaultTimeout (tx : Duration) : option Duration := Some tx.

Definition Id (d : ResourceData) : string := rd_id d.

Definition IsNewResource (d : ResourceData) : bool := rd_isNew d.

(** [d.Get]: the value written by [Set] if any, else the planned value;
    [None] is the nil interface. *)
Definition Get (d : ResourceData) (key : string) : option Value :=
  match rd_set d !! key with
  | Some v => Some v
  | None => rd_planned d !! key
  end.

(** [d.GetChange]: the prior and the planned value; values written with
    [Set] are not consulted. *)
Definition GetChange (d : ResourceData) (key : string)
    : option Value * option Value :=
  (rd_state d !! key, rd_planned d !! key).

Definition HasChange (d : ResourceData) (key : string) : bool :=
  let '(o, n) := GetChange d key in
  negb (bool_decide (o = n)).

Definition Set_ (d : ResourceData) (key : string) (v : Value) : ResourceData :=
  mkResourceData (rd_id d) (rd_isNew d) (rd_state d) (rd_planned d)
                 (<[key := v]> (rd_set d)) (rd_timeouts d).

Definition SetId (d : ResourceData) (v : string) : ResourceData :=
  mkResourceData v (rd_isNew d) (rd_state d) (rd_planned d)
                 (rd_set d) (rd_timeouts d).

(** [d.Timeout]: the operation's configured timeout, else the configured
    default, else the SDK's 20 minutes.  The keys passed by the hooks are
    the lower-case constants above. *)
Definition Timeout (d : ResourceData) (key : string) : Duration :=
  let defaultTimeout := 20 * time.Minute in
  match rd_timeouts d with
  | None => defaultTimeout
  | Some ts =>
      let timeout :=
        if String.eqb key TimeoutCreate then Create ts
        else if String.eqb key TimeoutRead then Read ts
        else if String.eqb key TimeoutUpdate then Update ts
        else if String.eqb key TimeoutDelete then Delete ts
        else None in
      match timeout with
      | Some t => t
      | None =>
          match Default ts with
          | Some t => t
          | None => defaultTimeout
          end
      end
  end.
End schema.

Module names.
(** Modelled from the spec: package [names] is not among the sources; the
    spec's interface table names the fields [instance_id] and [state]. *)
Definition AttrInstanceID := "instance_id".
Definition AttrState := "state".
End names.

(** ** The EC2 collaborators *)

(** Every call that reaches the remote API, with its arguments, in the order
    the hooks issue them. *)
Inductive RemoteCall :=
| CallWaitInstanceReady (id : string) (timeout : Duration)
| CallStopInstance (id : string) (force : bool) (timeout : Duration)
| CallStartInstance (id : string) (force : bool) (timeout : Duration)
| CallFindInstanceStateByID (id : string).

#[global] Instance RemoteCall_eq_dec : EqDecision RemoteCall.
Proof. solve_decision. Defined.

Definition isTransitionCall (c : RemoteCall) : bool :=
  match c with
  | CallStopInstance _ _ _ | CallStartInstance _ _ _ => true
  | _ => false
  end.

(** The collaborators behind [conn], over a remote world [W].  They are
    defined elsewhere in the package; here they are arbitrary functions of
    their Go result types. *)
Record EC2API (W : Type) := mkEC2API {
  api_waitInstanceReady :
    string -> Duration -> W -> (option Instance * option error) * W;
  api_stopInstance :
    string -> bool -> Duration -> W -> option error * W;
  api_startInstance :
    string -> bool -> Duration -> W -> option error * W;
  api_findInstanceStateByID :
    string -> W -> (option InstanceState * option error) * W
}.
Arguments api_waitInstanceReady {W}.
Arguments api_stopInstance {W}.
Arguments api_startInstance {W}.
Arguments api_findInstanceStateByID {W}.

(** ** The hook monad *)

Inductive LogEntry :=
| LogPrintf (line : string)
| LogNotFoundRemoveState (service action resource id : string).

Inductive Panic := NilDereference | TypeAssertion.

Inductive Outcome (A : Type) :=
| Returned (a : A)
| Panicked (p : Panic).
Arguments Returned {A}.
Arguments Panicked {A}.

Record Env (W : Type) := mkEnv {
  env_d : ResourceData;
  env_remote : W;
  env_calls : list RemoteCall;
  env_log : list LogEntry
}.
Arguments mkEnv {W}.
Arguments env_d {W}.
Arguments env_remote {W}.
Arguments env_calls {W}.
Arguments env_log {W}.

Definition M (W A : Type) : Type := Env W -> Outcome A * Env W.

Definition ret {W A} (a : A) : M W A := fun e => (Returned a, e).

Definition bind {W A B} (m : M W A) (k : A -> M W B) : M W B :=
  fun e =>
    match m e with
    | (Returned a, e') => k a e'
    | (Panicked p, e') => (Panicked p, e')
    end.

Definition panic {W A} (p : Panic) : M W A := fun e => (Panicked p, e).

Notation "'let*' x ':=' m 'in' k" := (bind m (fun x => k))
  (at level 10, x name, m at level 100, k at level 200).
Notation "'let*' ' pat ':=' m 'in' k" := (bind m (fun pat => k))
  (at level 10, pat pattern, m at level 100, k at level 200).
Notation "m ;;; k" := (bind m (fun _ => k))
  (at level 100, right associativity).

Section Primitives.
Context {W : Type}.
Variable conn : EC2API W.

Definition getData : M W ResourceData := fun e => (Returned (env_d e), e).

Definition modifyData (f : ResourceData -> ResourceData) : M W unit :=
  fun e => (Returned tt, mkEnv (f (env_d e)) (env_remote e) (env_calls e) (env_log e)).

Definition logEntry (l : LogEntry) : M W unit :=
  fun e => (Returned tt, mkEnv (env_d e) (env_remote e) (env_calls e) (env_log e ++ [l])).

(** One collaborator call: run it on the remote world and record it. *)
Definition remoteCall {A} (c : RemoteCall) (f : W -> A * W) : M W A :=
  fun e =>
    let '(a, w') := f (env_remote e) in
    (Returned a, mkEnv (env_d e) w' (env_calls e ++ [c]) (env_log e)).

Definition waitInstanceReady (id : string) (timeout : Duration)
    : M W (option Instance * option error) :=
  remoteCall (CallWaitInstanceReady id timeout) (api_waitInstanceReady conn id timeout).

Definition stopInstance (id : string) (force : bool) (timeout : Duration)
    : M W (option error) :=
  remoteCall (CallStopInstance id force timeout) (api_stopInstance conn id force timeout).

Definition startInstance (id : string) (force : bool) (timeout : Duration)
    : M W (option error) :=
  remoteCall (CallStartInstance id force timeout) (api_startInstance conn id force timeout).

Definition findInstanceStateByID (id : string)
    : M W (option InstanceState * option error) :=
  remoteCall (CallFindInstanceStateByID id) (api_findInstanceStateByID conn id).

(** [x.(string)] and [x.(bool)]: the single-result type assertions panic
    on nil and on a value of another type. *)
Definition assertString (v : option Value) : M W string :=
  match v with
  | Some (VString s) => ret s
  | _ => panic TypeAssertion
  end.

Definition assertBool (v : option Value) : M W bool :=
  match v with
  | Some (VBool b) => ret b
  | _ => panic TypeAssertion
  end.

(** [p.f] on a pointer [p]: panics on nil. *)
Definition deref {A} (p : option A) : M W A :=
  match p with
  | Some a => ret a
  | None => panic NilDereference
  end.

Definition d_Id : M W string := let* d := getData in ret (schema.Id d).
Definition d_Get (key : string) : M W (option Value) :=
  let* d := getData in ret (schema.Get d key).
Definition d_Set (key : string) (v : Value) : M W unit :=
  modifyData (fun d => schema.Set_ d key v).
Definition d_SetId (v : string) : M W unit :=
  modifyData (fun d => schema.SetId d v).
Definition d_Timeout (key : string) : M W Duration :=
  let* d := getData in ret (schema.Timeout d key).
Definition d_IsNewResource : M W bool :=
  let* d := getData in ret (schema.IsNewResource d).
Definition d_HasChange (key : string) : M W bool :=
  let* d := getData in ret (schema.HasChange d key).
Definition d_GetChange (key : string) : M W (option Value * option Value) :=
  let* d := getData in ret (schema.GetChange d key).
End Primitives.

(** ** The hooks *)

Section Hooks.
Context {W : Type}.

(** [conn], the EC2 client of the provider. *)
Variable conn : EC2API W.

(** Package-level constants declared outside the file: the bounds of the
    stop and start transitions, the service and action labels and the two
    resource labels used in diagnostics and log lines. *)
Variables InstanceStopTimeout InstanceStartTimeout : Duration.
Variables names_EC2 ErrActionReading ResInstance ResInstanceState : string.

(** [updateInstanceState] (lines 139-157). *)
Definition updateInstanceState (id : string) (currentState configuredState : string)
    (force : bool) : M W (option error) :=
  if String.eqb currentState configuredState then ret None
  else
    let* r1 := (if String.eqb configuredState "stopped" then
                  stopInstance conn id force InstanceStopTimeout
                else ret None) in
    match r1 with
    | Some err => ret (Some err)
    | None =>
        let* r2 := (if String.eqb configuredState "running" then
                      startInstance conn id false InstanceStartTimeout
                    else ret None) in
        match r2 with
        | Some err => ret (Some err)
        | None => ret None
        end
    end.

(** [resourceInstanceStateRead] (lines 86-108). *)
Definition resourceInstanceStateRead : M W Diagnostics :=
  let diags : Diagnostics := [] in
  let* id := d_Id in
  let* '(state, err) := findInstanceStateByID conn id in
  let* isNew := d_IsNewResource in
  if negb isNew && tfresource.NotFound err then
    let* id := d_Id in
    logEntry (LogNotFoundRemoveState names_EC2 ErrActionReading ResInstanceState id) ;;;
    d_SetId "" ;;;
    ret diags
  else
    match err with
    | Some e =>
        let* id := d_Id in
        ret (create.AppendDiagError diags names_EC2 ErrActionReading ResInstanceState id e)
    | None =>
        let* id := d_Id in
        d_Set names.AttrInstanceID (VString id) ;;;
        let* st := deref state in
        d_Set names.AttrState (VString (Name st)) ;;;
        let* f := d_Get "force" in
        let* b := assertBool f in
        d_Set "force" (VBool b) ;;;
        ret diags
    end.

(** [resourceInstanceStateCreate] (lines 63-84). *)
Definition resourceInstanceStateCreate : M W Diagnostics :=
  let diags : Diagnostics := [] in
  let* v := d_Get names.AttrInstanceID in
  let* instanceId := assertString v in
  let* timeout := d_Timeout schema.TimeoutCreate in
  let* '(instance, instanceErr) := waitInstanceReady conn instanceId timeout in
  match instanceErr with
  | Some e =>
      ret (create.AppendDiagError diags names_EC2 ErrActionReading ResInstance instanceId e)
  | None =>
      let* inst := deref instance in
      let* st := deref (State inst) in
      let* vs := d_Get names.AttrState in
      let* configured := assertString vs in
      let* vf := d_Get "force" in
      let* force := assertBool vf in
      let* err := updateInstanceState instanceId (Name st) configured force in
      match err with
      | Some _ => ret (sdkdiag.AppendFromErr diags err)
      | None =>
          let* v' := d_Get names.AttrInstanceID in
          let* id' := assertString v' in
          d_SetId id' ;;;
          let* rd := resourceInstanceStateRead in
          ret (diags ++ rd)
      end
  end.

(** [resourceInstanceStateUpdate] (lines 110-131). *)
Definition resourceInstanceStateUpdate : M W Diagnostics :=
  let diags : Diagnostics := [] in
  let* id := d_Id in
  let* timeout := d_Timeout schema.TimeoutUpdate in
  let* '(instance, instanceErr) := waitInstanceReady conn id timeout in
  match instanceErr with
  | Some e =>
      let* inst := deref instance in
      ret (create.AppendDiagError diags names_EC2 ErrActionReading ResInstance
             (aws.ToString (InstanceId inst)) e)
  | None =>
      let* changed := d_HasChange names.AttrState in
      let* r := (if changed then
                   let* '(o, n) := d_GetChange names.AttrState in
                   let* id := d_Id in
                   let* os := assertString o in
                   let* ns := assertString n in
                   let* vf := d_Get "force" in
                   let* force := assertBool vf in
                   updateInstanceState id os ns force
                 else ret None) in
      match r with
      | Some _ => ret (sdkdiag.AppendFromErr diags r)
      | None =>
          let* rd := resourceInstanceStateRead in
          ret (diags ++ rd)
      end
  end.

(** [resourceInstanceStateDelete] (lines 133-137). *)
Definition resourceInstanceStateDelete : M W Diagnostics :=
  let* id := d_Id in
  logEntry (LogPrintf ("[DEBUG] " +:+ names_EC2 +:+ " " +:+ ResInstanceState +:+
    " deleting an aws_ec2_instance_state resource only stops managing instance state, The Instance is left in its current state.: "
    +:+ id)) ;;;
  ret [].
End Hooks.

(** ** The resource declaration *)

Inductive ValueType := TypeBool | TypeString.

Record SchemaField := mkSchemaField {
  sch_Type : ValueType;
  sch_Optional : bool;
  sch_Required : bool;
  sch_ForceNew : bool;
  sch_Default : option Value;
  sch_ValidateFunc : option (string -> bool)
}.

Module validation.
(** [validation.StringInSlice valid false]: case-sensitive membership. *)
Definition StringInSlice (valid : list string) (v : string) : bool :=
  existsb (String.eqb v) valid.
End validation.

Module awstypes.
Definition InstanceStateNameRunning := "running".
Definition InstanceStateNameStopped := "stopped".
End awstypes.

Record Resource (W : Type) := mkResource {
  CreateWithoutTimeout : M W Diagnostics;
  ReadWithoutTimeout : M W Diagnostics;
  UpdateWithoutTimeout : M W Diagnostics;
  DeleteWithoutTimeout : M W Diagnostics;
  Timeouts : option ResourceTimeout;
  Schema : gmap string SchemaField
}.
Arguments Timeouts {W}.
Arguments Schema {W}.

Section Declaration.
Context {W : Type}.
Variable conn : EC2API W.
Variables InstanceStopTimeout InstanceStartTimeout : Duration.
Variables names_EC2 ErrActionReading ResInstance ResInstanceState : string.

(** [resourceInstanceState] (lines 26-61); the importer is left out. *)
Definition resourceInstanceState : Resource W :=
  {| CreateWithoutTimeout :=
       resourceInstanceStateCreate conn InstanceStopTimeout InstanceStartTimeout
         names_EC2 ErrActionReading ResInstance ResInstanceState;
     ReadWithoutTimeout :=
       resourceInstanceStateRead conn names_EC2 ErrActionReading ResInstanceState;
     UpdateWithoutTimeout :=
       resourceInstanceStateUpdate conn InstanceStopTimeout InstanceStartTimeout
         names_EC2 ErrActionReading ResInstance ResInstanceState;
     DeleteWithoutTimeout :=
       resourceInstanceStateDelete names_EC2 ResInstanceState;
     Timeouts := Some
       {| Create := schema.DefaultTimeout (10 * time.Minute);
          Read := None;
          Update := schema.DefaultTimeout (10 * time.Minute);
          Delete := schema.DefaultTimeout (1 * time.Minute);
          Default := None |};
     Schema :=
       <["force" := mkSchemaField TypeBool true false false (Some (VBool false)) None]>
       (<[names.AttrInstanceID := mkSchemaField TypeString false true true None None]>
       (<[names.AttrState :=
            mkSchemaField TypeString false true false None
              (Some (validation.StringInSlice
                       [awstypes.InstanceStateNameRunning;
                        awstypes.InstanceStateNameStopped]))]> ∅)) |}.
End Declaration.

(** ** The readiness waiter *)

(** Modelled from the spec: [waitInstanceReady] is not among the sources; the
    spec describes it as "an instance-readiness waiter returning the instance's
    current named state or a not-ready/timeout error".  [WaitResult] is that
    alternative, and [waitResultValues] its Go result pair: an instance and a
    nil error, or a nil instance and an error. *)
Inductive WaitResult :=
| WaitReady (instance : Instance)
| WaitFailed (err : error).

Definition waitResultValues (r : WaitResult) : option Instance * option error :=
  match r with
  | WaitReady i => (Some i, None)
  | WaitFailed err => (None, Some err)
  end.

(** ** A simulated EC2 for running the hooks on concrete inputs

    The remote world maps instance ids to their state names.  Stopping and
    starting an instance that exists sets its state; an instance that stays
    in a transitional state never becomes ready. *)
Module Sim.
Definition errNotFound := mkError "couldn't find resource" true.
Definition errTimeout := mkError "timeout while waiting for state" false.
Definition errAPI := mkError "operation error EC2" false.

Definition isReady (s : string) : bool :=
  String.eqb s "running" || String.eqb s "stopped".

Definition wait (id : string) (timeout : Duration) (w : gmap string string)
    : (option Instance * option error) * gmap string string :=
  match w !! id with
  | Some s =>
      if isReady s then
        (waitResultValues (WaitReady (mkInstance (Some id) (Some (mkInstanceState s)))), w)
      else (waitResultValues (WaitFailed errTimeout), w)
  | None => (waitResultValues (WaitFailed errNotFound), w)
  end.

Definition stop (id : string) (force : bool) (timeout : Duration)
    (w : gmap string string) : option error * gmap string string :=
  match w !! id with
  | Some _ => (None, <[id := "stopped"]> w)
  | None => (Some errAPI, w)
  end.

Definition start (id : string) (force : bool) (timeout : Duration)
    (w : gmap string string) : option error * gmap string string :=
  match w !! id with
  | Some _ => (None, <[id := "running"]> w)
  | None => (Some errAPI, w)
  end.

Definition find (id : string) (w : gmap string string)
    : (option InstanceState * option error) * gmap string string :=
  match w !! id with
  | Some s => ((Some (mkInstanceState s), None), w)
  | None => ((None, Some errNotFound), w)
  end.

Definition conn : EC2API (gmap string string) := mkEC2API _ wait stop start find.

Definition InstanceStopTimeout : Duration := 10 * time.Minute.
Definition InstanceStartTimeout : Duration := 10 * time.Minute.

(** A managed resource for instance [id] whose prior and planned [state]
    are [old] and [new]. *)
Definition data (id old new : string) (force isNew : bool) : ResourceData :=
  {| rd_id := id;
     rd_isNew := isNew;
     rd_state := <[names.AttrState := VString old]>
                 (<[names.AttrInstanceID := VString id]>
                 (<["force" := VBool force]> ∅));
     rd_planned := <[names.AttrState := VString new]>
                   (<[names.AttrInstanceID := VString id]>
                   (<["force" := VBool force]> ∅));
     rd_set := ∅;
     rd_timeouts := Some
       {| Create := Some (10 * time.Minute); Read := None;
          Update := Some (10 * time.Minute);
          Delete := Some (1 * time.Minute); Default := None |} |}.

Definition env (d : ResourceData) (w : gmap string string) : Env (gmap string string) :=
  mkEnv d w [] [].

Definition updateInstanceState :=
  updateInstanceState conn InstanceStopTimeout InstanceStartTimeout.
Definition Read := resourceInstanceStateRead conn "ec2" "reading" "Instance State".
Definition Create :=
  resourceInstanceStateCreate conn InstanceStopTimeout InstanceStartTimeout
    "ec2" "reading" "Instance" "Instance State".
Definition Update :=
  resourceInstanceStateUpdate conn InstanceStopTimeout InstanceStartTimeout
    "ec2" "reading" "Instance" "Instance State".
Definition Delete : M (gmap string string) Diagnostics :=
  resourceInstanceStateDelete "ec2" "Instance State".
End Sim.

(** Concrete inputs: one instance, in each remote state of interest. *)
Module Inputs.
Definition id := "i-0abc".
Definition running : gmap string string := <[id := "running"]> ∅.
Definition stopped : gmap string string := <[id := "stopped"]> ∅.
Definition pending : gmap string string := <[id := "pending"]> ∅.
Definition absent : gmap string string := ∅.

(** A resource whose declared state did not change. *)
Definition unchanged : ResourceData := Sim.data id "running" "running" false false.
(** A resource whose declared state changed from running to stopped. *)
Definition toStopped : ResourceData := Sim.data id "running" "stopped" true false.
(** A resource being created with desired state running. *)
Definition fresh : ResourceData := Sim.data id "" "running" true true.
End Inputs.

(** [grows m]: running [m] appends to the record of remote calls. *)
Definition grows {W A} (m : M W A) : Prop :=
  forall e, exists l, env_calls (snd (m e)) = env_calls e ++ l.

(** [first_call c m e]: the first remote call [m] issues from [e] is [c]. *)
Definition first_call {W A} (c : RemoteCall) (m : M W A) (e : Env W) : Prop :=
  exists rest, env_calls (snd (m e)) = env_calls e ++ c :: rest.

(** A simulated EC2 whose stop and start calls always fail. *)
Module Faulty.
Definition stop (id : string) (force : bool) (timeout : Duration)
    (w : gmap string string) : option error * gmap string string :=
  (Some Sim.errAPI, w).

Definition start (id : string) (force : bool) (timeout : Duration)
    (w : gmap string string) : option error * gmap string string :=
  (Some Sim.errAPI, w).

Definition conn : EC2API (gmap string string) :=
  mkEC2API _ Sim.wait stop start Sim.find.

Definition Create :=
  resourceInstanceStateCreate conn Sim.InstanceStopTimeout Sim.InstanceStartTimeout
    "ec2" "reading" "Instance" "Instance State".
Definition Update :=
  resourceInstanceStateUpdate conn Sim.InstanceStopTimeout Sim.InstanceStartTimeout
    "ec2" "reading" "Instance" "Instance State".
End Faulty.

(** A simulated EC2 whose readiness wait fails on an instance in an
    unexpected state and hands that instance back next to the error. *)
Module Unexpected.
Definition errState := mkError "unexpected state 'terminated'" false.

Definition wait (id : string) (timeout : Duration) (w : gmap string string)
    : (option Instance * option error) * gmap string string :=
  match w !! id with
  | Some s =>
      if Sim.isReady s then
        ((Some (mkInstance (Some id) (Some (mkInstanceState s))), None), w)
      else ((Some (mkInstance (Some id) (Some (mkInstanceState s))), Some errState), w)
  | None => ((None, Some Sim.errNotFound), w)
  end.

Definition conn : EC2API (gmap string string) :=
  mkEC2API _ wait Sim.stop Sim.start Sim.find.

Definition Update :=
  resourceInstanceStateUpdate conn Sim.InstanceStopTimeout Sim.InstanceStartTimeout
    "ec2" "reading" "Instance" "Instance State".

Definition terminated : gmap string string := <[Inputs.id := "terminated"]> ∅.
End Unexpected.

Module synthetics.
(** [propagationTimeout] of [internal/service/synthetics/consts.go]. *)
Definition propagationTimeout : Duration := 2 * time.Minute.
End synthetics.

(** [same_plan d d']: [d'] has the prior state, the planned values, the
    timeouts and the new-resource mark of [d]; only the id and the values
    written with [Set] may differ. *)
Definition same_plan (d d' : ResourceData) : Prop :=
  rd_state d' = rd_state d /\ rd_planned d' = rd_planned d /\
  rd_timeouts d' = rd_timeouts d /\ rd_isNew d' = rd_isNew d.

(** [keeps_plan m]: running [m] leaves the plan of the resource data as it
    was, in every outcome. *)
Definition keeps_plan {W A} (m : M W A) : Prop :=
  forall e, same_plan (env_d e) (env_d (snd (m e))).

(** The calls among [l] that change an instance's power state. *)
Definition transitions (l : list RemoteCall) : list RemoteCall :=
  List.filter isTransitionCall l.

(** * Properties *)

(** ** Reconciliation: [updateInstanceState] *)

Section Reconcile.
Context {W : Type}.
Variable conn : EC2API W.
Variables stopT startT : Duration.

Local Abbreviation reconcile := (updateInstanceState conn stopT startT).

(** C1: reconciling a state with itself returns a nil error and leaves the
    environment, in particular the record of remote calls and the remote
    world, exactly as it was, for every state and every force value. *)
Theorem updateInstanceState_same (id S : string) (force : bool) (e : Env W) :
  reconcile id S S force e = (Returned None, e).
Proof.
  unfold updateInstanceState. now rewrite String.eqb_refl.
Qed.

(** C2: with desired state "stopped" and any other current state, exactly
    one call is issued, the stop call carrying the caller's force flag, and
    the result of reconciling is the result of that call (its error, if
    any). *)
Theorem updateInstanceState_stop (id cur : string) (force : bool) (e : Env W) :
  cur <> "stopped" ->
  reconcile id cur "stopped" force e =
    (Returned (fst (api_stopInstance conn id force stopT (env_remote e))),
     mkEnv (env_d e)
           (snd (api_stopInstance conn id force stopT (env_remote e)))
           (env_calls e ++ [CallStopInstance id force stopT])
           (env_log e)).
Proof.
  intros Hne. unfold updateInstanceState.
  destruct (String.eqb_spec cur "stopped") as [Heq | _]; [contradiction |].
  cbn [String.eqb Ascii.eqb Bool.eqb].
  unfold bind, stopInstance, remoteCall.
  destruct (api_stopInstance conn id force stopT (env_remote e)) as [[err |] w'];
    reflexivity.
Qed.

(** C3: with desired state "running" and any other current state, exactly
    one call is issued, the start call with force fixed to false whatever
    the caller's force flag, and the result of reconciling is the result of
    that call (its error, if any). *)
Theorem updateInstanceState_start (id cur : string) (force : bool) (e : Env W) :
  cur <> "running" ->
  reconcile id cur "running" force e =
    (Returned (fst (api_startInstance conn id false startT (env_remote e))),
     mkEnv (env_d e)
           (snd (api_startInstance conn id false startT (env_remote e)))
           (env_calls e ++ [CallStartInstance id false startT])
           (env_log e)).
Proof.
  intros Hne. unfold updateInstanceState.
  destruct (String.eqb_spec cur "running") as [Heq | _]; [contradiction |].
  cbn [String.eqb Ascii.eqb Bool.eqb].
  unfold bind, startInstance, remoteCall, ret.
  destruct (api_startInstance conn id false startT (env_remote e)) as [[err |] w'];
    reflexivity.
Qed.

(** C4: the current state is used only in the equality test against the
    desired state: two current states that both differ from the desired
    state give the same computation (same result, same remote calls, same
    final environment from every initial environment). *)
Theorem updateInstanceState_current_irrelevant
    (id cur1 cur2 desired : string) (force : bool) :
  cur1 <> desired -> cur2 <> desired ->
  reconcile id cur1 desired force = reconcile id cur2 desired force.
Proof.
  intros H1 H2. unfold updateInstanceState.
  apply String.eqb_neq in H1, H2. now rewrite H1, H2.
Qed.
End Reconcile.

(** C2 at a running instance stopped with force: one forced stop call. *)
Lemma updateInstanceState_stop_witness :
  Sim.updateInstanceState Inputs.id "running" "stopped" true
    (Sim.env Inputs.toStopped Inputs.running)
  = (Returned None,
     mkEnv Inputs.toStopped (<[Inputs.id := "stopped"]> Inputs.running)
       [CallStopInstance Inputs.id true Sim.InstanceStopTimeout] []).
Proof.
  apply (updateInstanceState_stop Sim.conn Sim.InstanceStopTimeout
           Sim.InstanceStartTimeout Inputs.id "running" true
           (Sim.env Inputs.toStopped Inputs.running)).
  discriminate.
Defined.

(** C3 at a stopped instance started with force set: one unforced start call. *)
Lemma updateInstanceState_start_witness :
  Sim.updateInstanceState Inputs.id "stopped" "running" true
    (Sim.env Inputs.fresh Inputs.stopped)
  = (Returned None,
     mkEnv Inputs.fresh (<[Inputs.id := "running"]> Inputs.stopped)
       [CallStartInstance Inputs.id false Sim.InstanceStartTimeout] []).
Proof.
  apply (updateInstanceState_start Sim.conn Sim.InstanceStopTimeout
           Sim.InstanceStartTimeout Inputs.id "stopped" true
           (Sim.env Inputs.fresh Inputs.stopped)).
  discriminate.
Defined.

(** C4 at current states "pending" and "stopped" with desired "running". *)
Lemma updateInstanceState_current_irrelevant_witness :
  Sim.updateInstanceState Inputs.id "pending" "running" true
  = Sim.updateInstanceState Inputs.id "stopped" "running" true.
Proof.
  apply (updateInstanceState_current_irrelevant Sim.conn Sim.InstanceStopTimeout
           Sim.InstanceStartTimeout Inputs.id "pending" "stopped" "running" true);
    discriminate.
Defined.

(** ** The record of remote calls only grows *)

Section Grows.
Context {W : Type}.

Lemma grows_ret {A} (a : A) : grows (@ret W A a).
Proof. intros e. exists []. cbn. now rewrite app_nil_r. Qed.

Lemma grows_panic {A} (p : Panic) : grows (@panic W A p).
Proof. intros e. exists []. cbn. now rewrite app_nil_r. Qed.

Lemma grows_bind {A B} (m : M W A) (k : A -> M W B) :
  grows m -> (forall a, grows (k a)) -> grows (bind m k).
Proof.
  intros Hm Hk e. unfold bind.
  destruct (Hm e) as [l Hl]. destruct (m e) as [[a | p] e1]; cbn in *.
  - destruct (Hk a e1) as [l' Hl']. exists (l ++ l').
    now rewrite Hl', Hl, app_assoc.
  - now exists l.
Qed.

Lemma grows_getData : grows (@getData W).
Proof. intros e. exists []. cbn. now rewrite app_nil_r. Qed.

Lemma grows_modifyData f : grows (@modifyData W f).
Proof. intros e. exists []. cbn. now rewrite app_nil_r. Qed.

Lemma grows_logEntry l : grows (@logEntry W l).
Proof. intros e. exists []. cbn. now rewrite app_nil_r. Qed.

Lemma grows_remoteCall {A} c (f : W -> A * W) : grows (remoteCall c f).
Proof.
  intros e. exists [c]. unfold remoteCall.
  now destruct (f (env_remote e)).
Qed.

Lemma grows_if {A} (b : bool) (m1 m2 : M W A) :
  grows m1 -> grows m2 -> grows (if b then m1 else m2).
Proof. now destruct b. Qed.

Lemma grows_assertString v : grows (@assertString W v).
Proof. destruct v as [[s | b] |]; cbn; auto using grows_ret, grows_panic. Qed.

Lemma grows_assertBool v : grows (@assertBool W v).
Proof. destruct v as [[s | b] |]; cbn; auto using grows_ret, grows_panic. Qed.

Lemma grows_deref {A} (p : option A) : grows (@deref W A p).
Proof. destruct p; cbn; auto using grows_ret, grows_panic. Qed.

Lemma first_call_bind_pure {A B} (m : M W A) (k : A -> M W B) a c e :
  m e = (Returned a, e) -> first_call c (k a) e -> first_call c (bind m k) e.
Proof. intros Hm [rest Hk]. exists rest. unfold bind. now rewrite Hm. Qed.

Lemma first_call_remote {A B} c (f : W -> A * W) (k : A -> M W B) e :
  (forall a, grows (k a)) -> first_call c (bind (remoteCall c f) k) e.
Proof.
  intros Hk. unfold first_call, bind, remoteCall.
  destruct (f (env_remote e)) as [a w'].
  destruct (Hk a (mkEnv (env_d e) w' (env_calls e ++ [c]) (env_log e))) as [l Hl].
  exists l. rewrite Hl. cbn. now rewrite <- app_assoc.
Qed.

Lemma snd_bind_ret {A B} (m : M W A) (f : A -> B) e :
  snd (bind m (fun a => ret (f a)) e) = snd (m e).
Proof. unfold bind, ret. now destruct (m e) as [[a | p] e']. Qed.

Lemma Get_Set_eq d k v : schema.Get (schema.Set_ d k v) k = Some v.
Proof. unfold schema.Get, schema.Set_. cbn. now rewrite lookup_insert_eq. Qed.

Lemma Get_Set_ne d k k' v :
  k <> k' -> schema.Get (schema.Set_ d k v) k' = schema.Get d k'.
Proof.
  intros Hne. unfold schema.Get, schema.Set_. cbn.
  now rewrite lookup_insert_ne.
Qed.
End Grows.

Create HintDb grows discriminated.
#[export] Hint Resolve grows_ret grows_panic grows_getData grows_modifyData
  grows_logEntry grows_remoteCall grows_assertString grows_assertBool
  grows_deref : grows.

(** Decompose a hook into its primitives. *)
Ltac grows_step :=
  match goal with
  | |- grows (bind _ _) => apply grows_bind; [| intros ?]
  | |- grows (if _ then _ else _) => apply grows_if
  | |- grows (match ?x with _ => _ end) => destruct x
  | |- grows _ => solve [auto with grows]
  end.

Ltac solve_grows := repeat grows_step.

Section HooksGrow.
Context {W : Type}.
Variable conn : EC2API W.
Variables stopT startT : Duration.
Variables svc action resInstance resInstanceState : string.

Lemma grows_updateInstanceState id cur desired force :
  grows (updateInstanceState conn stopT startT id cur desired force).
Proof.
  unfold updateInstanceState, stopInstance, startInstance. solve_grows.
Qed.

Lemma grows_resourceInstanceStateRead :
  grows (resourceInstanceStateRead conn svc action resInstanceState).
Proof.
  unfold resourceInstanceStateRead, findInstanceStateByID, d_Id, d_Get, d_Set,
    d_SetId, d_IsNewResource.
  solve_grows.
Qed.
End HooksGrow.

#[export] Hint Resolve grows_updateInstanceState grows_resourceInstanceStateRead
  : grows.

(** ** The lifecycle hooks *)

(** Run a hook symbolically: unfold the primitives and split on every
    scrutinee the code branches on. *)
Ltac hook_unfold :=
  unfold d_Id, d_Get, d_Set, d_SetId, d_Timeout, d_IsNewResource, d_HasChange,
    d_GetChange, waitInstanceReady, stopInstance, startInstance,
    findInstanceStateByID, deref, assertString, assertBool in *;
  unfold remoteCall, getData, modifyData, logEntry in *;
  unfold bind, ret, panic in *.

Ltac hook_cases :=
  repeat (cbn [fst snd env_d env_remote env_calls env_log negb andb] in *;
          match goal with
          | |- context [match ?x with _ => _ end] =>
              lazymatch x with
              | context [match _ with _ => _ end] => fail
              | _ => destruct x eqn:?
              end
          end).

Section Lifecycle.
Context {W : Type}.
Variable conn : EC2API W.
Variables stopT startT : Duration.
Variables svc action resInstance resInstanceState : string.

Local Abbreviation hookRead := (resourceInstanceStateRead conn svc action resInstanceState).
Local Abbreviation hookCreate :=
  (resourceInstanceStateCreate conn stopT startT svc action resInstance resInstanceState).
Local Abbreviation hookUpdate :=
  (resourceInstanceStateUpdate conn stopT startT svc action resInstance resInstanceState).
Local Abbreviation hookDelete := (@resourceInstanceStateDelete W svc resInstanceState).

(** Read issues exactly one remote call, the lookup by the resource's id,
    whatever its outcome. *)
Lemma Read_calls (e : Env W) :
  env_calls (snd (hookRead e)) =
    env_calls e ++ [CallFindInstanceStateByID (schema.Id (env_d e))].
Proof.
  unfold resourceInstanceStateRead. hook_unfold. hook_cases; reflexivity.
Qed.

(** C7: Delete returns empty diagnostics for every resource, records no
    remote call and leaves the remote world and the resource data as they
    were; its only effect is one log line. *)
Theorem resourceInstanceStateDelete_no_call (e : Env W) :
  fst (hookDelete e) = Returned [] /\
  env_calls (snd (hookDelete e)) = env_calls e /\
  env_remote (snd (hookDelete e)) = env_remote e /\
  env_d (snd (hookDelete e)) = env_d e /\
  exists line, env_log (snd (hookDelete e)) = env_log e ++ [LogPrintf line].
Proof.
  unfold resourceInstanceStateDelete. hook_unfold. cbn.
  repeat split. now eexists.
Qed.

(** C6: when the lookup reports not-found and the resource is not new,
    Read clears the id and returns empty diagnostics; when the lookup
    returns any error and the resource is new or the error is not
    not-found, Read returns one error diagnostic and leaves the resource
    data as it was. *)
Theorem resourceInstanceStateRead_lookup_error (e : Env W) :
  let d := env_d e in
  let err := snd (fst (api_findInstanceStateByID conn (schema.Id d) (env_remote e))) in
  (schema.IsNewResource d = false -> tfresource.NotFound err = true ->
     fst (hookRead e) = Returned [] /\
     env_d (snd (hookRead e)) = schema.SetId d "" /\
     schema.Id (env_d (snd (hookRead e))) = "") /\
  (forall x, err = Some x ->
     schema.IsNewResource d = true \/ tfresource.NotFound err = false ->
     fst (hookRead e) =
       Returned [mkDiagnostic SeverityError
                   (ProblemStandardMessage svc action resInstanceState (schema.Id d) x)] /\
     (forall diags, fst (hookRead e) = Returned diags -> HasError diags = true) /\
     env_d (snd (hookRead e)) = d).
Proof.
  cbn zeta. unfold resourceInstanceStateRead. hook_unfold.
  unfold schema.IsNewResource.
  destruct (api_findInstanceStateByID conn (schema.Id (env_d e)) (env_remote e))
    as [[st err] w'].
  cbn [fst snd env_d env_remote env_calls env_log].
  split.
  - intros -> ->. cbn. auto.
  - intros x -> Hcase.
    assert (negb (rd_isNew (env_d e)) && tfresource.NotFound (Some x) = false) as ->.
    { destruct Hcase as [-> | ->]; [reflexivity | apply andb_false_r]. }
    cbn. repeat split. intros diags [= <-]. reflexivity.
Qed.

(** C8: when the lookup finds the instance, Read returns (with empty
    diagnostics) exactly when the stored [force] is a boolean; afterwards
    [instance_id] reads as the resource's id, [state] as the observed state
    name and [force] as it read before, and every other attribute, the id,
    the prior and planned values, the timeouts and the new-resource mark
    are as they were. *)
Theorem resourceInstanceStateRead_found (e : Env W) (st : InstanceState) :
  let d := env_d e in
  let d' := env_d (snd (hookRead e)) in
  fst (api_findInstanceStateByID conn (schema.Id d) (env_remote e)) = (Some st, None) ->
  (forall b, schema.Get d "force" = Some (VBool b) ->
     fst (hookRead e) = Returned [] /\
     schema.Get d' names.AttrInstanceID = Some (VString (schema.Id d)) /\
     schema.Get d' names.AttrState = Some (VString (Name st)) /\
     schema.Get d' "force" = schema.Get d "force" /\
     (forall k, k <> names.AttrInstanceID -> k <> names.AttrState -> k <> "force" ->
                schema.Get d' k = schema.Get d k) /\
     schema.Id d' = schema.Id d /\
     (forall k, schema.GetChange d' k = schema.GetChange d k) /\
     rd_timeouts d' = rd_timeouts d /\
     schema.IsNewResource d' = schema.IsNewResource d) /\
  (forall diags, fst (hookRead e) = Returned diags ->
     exists b, schema.Get d "force" = Some (VBool b)).
Proof.
  cbn zeta. intros Hfind.
  unfold resourceInstanceStateRead. hook_unfold.
  destruct (api_findInstanceStateByID conn (schema.Id (env_d e)) (env_remote e))
    as [[st' err'] w'].
  cbn in Hfind. injection Hfind as -> ->.
  cbn [fst snd env_d env_remote env_calls env_log tfresource.NotFound].
  rewrite andb_false_r.
  cbn [fst snd env_d env_remote env_calls env_log].
  rewrite !Get_Set_ne by discriminate.
  split.
  - intros b Hforce. rewrite Hforce.
    cbn [fst snd env_d env_remote env_calls env_log].
    repeat split.
    + rewrite !Get_Set_ne by discriminate. apply Get_Set_eq.
    + rewrite Get_Set_ne by discriminate. apply Get_Set_eq.
    + apply Get_Set_eq.
    + intros k H1 H2 H3. now rewrite !Get_Set_ne by congruence.
  - intros diags.
    destruct (schema.Get (env_d e) "force") as [[s | b] |]; cbn; try discriminate.
    intros _. now exists b.
Qed.

(** C5, as amended: when the declared [state] has not changed, Update
    issues no stop or start call; it issues the readiness wait on the
    resource's id with the Update timeout and, when the wait returns no
    error, the lookup of its final Read, and nothing else. *)
Theorem resourceInstanceStateUpdate_unchanged (e : Env W) :
  let id := schema.Id (env_d e) in
  let t := schema.Timeout (env_d e) schema.TimeoutUpdate in
  schema.HasChange (env_d e) names.AttrState = false ->
  exists issued,
    env_calls (snd (hookUpdate e)) = env_calls e ++ issued /\
    issued = CallWaitInstanceReady id t ::
               match snd (fst (api_waitInstanceReady conn id t (env_remote e))) with
               | Some _ => []
               | None => [CallFindInstanceStateByID id]
               end /\
    Forall (fun c => isTransitionCall c = false) issued.
Proof.
  cbn zeta. intros Hsame. eexists. split; [| split; [reflexivity |]].
  - unfold resourceInstanceStateUpdate. hook_unfold.
    destruct (api_waitInstanceReady conn (schema.Id (env_d e))
                (schema.Timeout (env_d e) schema.TimeoutUpdate) (env_remote e))
      as [[inst [err |]] w1];
      cbn [fst snd env_d env_remote env_calls env_log].
    + now destruct inst.
    + rewrite Hsame.
      match goal with
      | |- context [hookRead ?e1] =>
          pose proof (Read_calls e1) as HR; destruct (hookRead e1) as [[rd | p] e2]
      end; cbn in *; rewrite HR; now rewrite <- app_assoc.
  - destruct (snd (fst (api_waitInstanceReady conn _ _ _))); repeat constructor.
Qed.

(** C9: the declared default timeouts are 10 minutes for Create, 10 minutes
    for Update and 1 minute for Delete; the first remote call of Create is
    the readiness wait with the timeout configured for Create, the first
    remote call of Update is the readiness wait with the timeout configured
    for Update, and under the declared defaults both are 10 minutes. *)
Theorem resourceInstanceState_timeouts (e : Env W) :
  let d := env_d e in
  let declared :=
    Timeouts (resourceInstanceState conn stopT startT svc action resInstance
                resInstanceState) in
  declared = Some {| Create := Some (10 * time.Minute); Read := None;
                     Update := Some (10 * time.Minute);
                     Delete := Some (1 * time.Minute); Default := None |} /\
  10 * time.Minute = 600000000000 /\ 1 * time.Minute = 60000000000 /\
  (forall instanceId,
     schema.Get d names.AttrInstanceID = Some (VString instanceId) ->
     first_call (CallWaitInstanceReady instanceId (schema.Timeout d schema.TimeoutCreate))
       hookCreate e) /\
  first_call (CallWaitInstanceReady (schema.Id d) (schema.Timeout d schema.TimeoutUpdate))
    hookUpdate e /\
  (rd_timeouts d = declared ->
     schema.Timeout d schema.TimeoutCreate = 10 * time.Minute /\
     schema.Timeout d schema.TimeoutUpdate = 10 * time.Minute /\
     schema.Timeout d schema.TimeoutDelete = 1 * time.Minute).
Proof.
  cbn zeta. repeat split.
  - intros instanceId Hid. unfold resourceInstanceStateCreate.
    eapply first_call_bind_pure; [reflexivity |]. rewrite Hid.
    eapply first_call_bind_pure; [reflexivity |].
    eapply first_call_bind_pure; [reflexivity |].
    apply first_call_remote. intros [inst err].
    unfold d_Id, d_Get, d_SetId. solve_grows.
  - unfold resourceInstanceStateUpdate.
    eapply first_call_bind_pure; [reflexivity |].
    eapply first_call_bind_pure; [reflexivity |].
    apply first_call_remote. intros [inst err].
    unfold d_Id, d_Get, d_HasChange, d_GetChange. solve_grows.
  - unfold schema.Timeout. now rewrite H.
  - unfold schema.Timeout. now rewrite H.
  - unfold schema.Timeout. now rewrite H.
Qed.

(** C10: when the readiness wait of Update fails, it returns a nil instance
    next to the error, and reading the instance's [InstanceId] for the
    diagnostic is a nil dereference: Update panics right after the wait
    instead of returning an error diagnostic. *)
Theorem resourceInstanceStateUpdate_wait_error_panics (e : Env W) (err : error) (w' : W) :
  let id := schema.Id (env_d e) in
  let t := schema.Timeout (env_d e) schema.TimeoutUpdate in
  api_waitInstanceReady conn id t (env_remote e) = (waitResultValues (WaitFailed err), w') ->
  hookUpdate e =
    (Panicked NilDereference,
     mkEnv (env_d e) w' (env_calls e ++ [CallWaitInstanceReady id t]) (env_log e)).
Proof.
  cbn zeta. intros Hwait.
  unfold resourceInstanceStateUpdate. hook_unfold.
  now rewrite Hwait.
Qed.
End Lifecycle.

(** ** The hooks on concrete inputs *)

(** C6 on a tracked resource whose instance is gone (dropped silently) and on
    a new resource whose instance is gone (an error diagnostic). *)
Lemma resourceInstanceStateRead_lookup_error_witness :
  (fst (Sim.Read (Sim.env Inputs.unchanged Inputs.absent)) = Returned [] /\
   schema.Id (env_d (snd (Sim.Read (Sim.env Inputs.unchanged Inputs.absent)))) = "") /\
  fst (Sim.Read (Sim.env Inputs.fresh Inputs.absent)) =
    Returned [mkDiagnostic SeverityError
                (ProblemStandardMessage "ec2" "reading" "Instance State" Inputs.id
                   Sim.errNotFound)].
Proof.
  split.
  - destruct (resourceInstanceStateRead_lookup_error Sim.conn "ec2" "reading"
                "Instance State" (Sim.env Inputs.unchanged Inputs.absent))
      as [Hgone _].
    destruct Hgone as (Hret & _ & Hid); [reflexivity | reflexivity |].
    split; [exact Hret | exact Hid].
  - destruct (resourceInstanceStateRead_lookup_error Sim.conn "ec2" "reading"
                "Instance State" (Sim.env Inputs.fresh Inputs.absent))
      as [_ Hother].
    destruct (Hother Sim.errNotFound) as (Hret & _); [reflexivity | now left |].
    exact Hret.
Defined.

(** C8 on a resource declared running whose instance is observed stopped. *)
Lemma resourceInstanceStateRead_found_witness :
  fst (Sim.Read (Sim.env Inputs.unchanged Inputs.stopped)) = Returned [] /\
  schema.Get (env_d (snd (Sim.Read (Sim.env Inputs.unchanged Inputs.stopped))))
    names.AttrState = Some (VString "stopped") /\
  schema.Get (env_d (snd (Sim.Read (Sim.env Inputs.unchanged Inputs.stopped))))
    "force" = Some (VBool false).
Proof.
  destruct (resourceInstanceStateRead_found Sim.conn "ec2" "reading" "Instance State"
              (Sim.env Inputs.unchanged Inputs.stopped)
              (mkInstanceState "stopped"))
    as [Hfound _]; [reflexivity |].
  destruct (Hfound false) as (Hret & _ & Hstate & Hforce & _); [reflexivity |].
  split; [exact Hret | split; [exact Hstate | exact Hforce]].
Defined.

(** C5 as stated fails: with an unchanged [state] Update still calls the
    remote API before its Read; the readiness wait is the first of its two
    calls. *)
Lemma resourceInstanceStateUpdate_unchanged_still_waits :
  schema.HasChange Inputs.unchanged names.AttrState = false /\
  fst (Sim.Update (Sim.env Inputs.unchanged Inputs.running)) = Returned [] /\
  env_calls (snd (Sim.Update (Sim.env Inputs.unchanged Inputs.running))) =
    [CallWaitInstanceReady Inputs.id 600000000000;
     CallFindInstanceStateByID Inputs.id].
Proof. vm_compute. repeat split. Qed.

(** C5 as amended, on the same input. *)
Lemma resourceInstanceStateUpdate_unchanged_witness :
  exists issued,
    env_calls (snd (Sim.Update (Sim.env Inputs.unchanged Inputs.running))) = [] ++ issued /\
    issued = [CallWaitInstanceReady Inputs.id 600000000000;
              CallFindInstanceStateByID Inputs.id] /\
    Forall (fun c => isTransitionCall c = false) issued.
Proof.
  apply (resourceInstanceStateUpdate_unchanged Sim.conn Sim.InstanceStopTimeout
           Sim.InstanceStartTimeout "ec2" "reading" "Instance" "Instance State"
           (Sim.env Inputs.unchanged Inputs.running)).
  reflexivity.
Defined.

(** C9 on a resource being created under the declared timeouts. *)
Lemma resourceInstanceState_timeouts_witness :
  first_call (CallWaitInstanceReady Inputs.id 600000000000) Sim.Create
    (Sim.env Inputs.fresh Inputs.stopped) /\
  schema.Timeout Inputs.fresh schema.TimeoutCreate = 600000000000 /\
  schema.Timeout Inputs.fresh schema.TimeoutUpdate = 600000000000 /\
  schema.Timeout Inputs.fresh schema.TimeoutDelete = 60000000000.
Proof.
  destruct (resourceInstanceState_timeouts Sim.conn Sim.InstanceStopTimeout
              Sim.InstanceStartTimeout "ec2" "reading" "Instance" "Instance State"
              (Sim.env Inputs.fresh Inputs.stopped))
    as (_ & _ & _ & Hcreate & _ & Hdeclared).
  split.
  - apply (Hcreate Inputs.id). reflexivity.
  - apply Hdeclared. reflexivity.
Defined.

(** C10 on an instance that stays pending: the wait times out and Update
    panics. *)
Lemma resourceInstanceStateUpdate_wait_error_panics_witness :
  Sim.Update (Sim.env Inputs.unchanged Inputs.pending) =
    (Panicked NilDereference,
     mkEnv Inputs.unchanged Inputs.pending
       [CallWaitInstanceReady Inputs.id 600000000000] []).
Proof.
  apply (resourceInstanceStateUpdate_wait_error_panics Sim.conn
           Sim.InstanceStopTimeout Sim.InstanceStartTimeout "ec2" "reading"
           "Instance" "Instance State"
           (Sim.env Inputs.unchanged Inputs.pending) Sim.errTimeout Inputs.pending).
  reflexivity.
Defined.

(** * Further properties of the hooks *)

(** ** Reconciliation beyond the two declared states *)

(** Turn the string tests met on a path into equations and close the paths
    whose tests contradict each other. *)
Ltac eqb_clean :=
  repeat match goal with
         | H : String.eqb _ _ = true |- _ =>
             apply String.eqb_eq in H; try discriminate H; subst
         end.

Ltac hook_simpl := cbn [fst snd env_d env_remote env_calls env_log].

Section ReconcileMore.
Context {W : Type}.
Variable conn : EC2API W.
Variables stopT startT : Duration.
Variables svc action resInstance resInstanceState : string.

Local Abbreviation reconcile' := (updateInstanceState conn stopT startT).

(** X1: a desired state that is neither "stopped" nor "running" makes
    [updateInstanceState] succeed without doing anything, also when it
    differs from the current state. *)
Theorem updateInstanceState_other_desired
    (id cur desired : string) (force : bool) (e : Env W) :
  desired <> "stopped" -> desired <> "running" ->
  reconcile' id cur desired force e = (Returned None, e).
Proof.
  intros Hs Hr. unfold updateInstanceState.
  apply String.eqb_neq in Hs, Hr. rewrite Hs, Hr.
  now destruct (String.eqb cur desired).
Qed.

(** X2: [updateInstanceState] never panics and never touches the resource
    data or the log; it issues at most one remote call, which is a stop of
    [id] with the caller's force flag or an unforced start of [id]; when it
    issues none it returns nil and leaves the remote world alone. *)
Theorem updateInstanceState_frame
    (id cur desired : string) (force : bool) (e : Env W) :
  exists r w' issued,
    reconcile' id cur desired force e =
      (Returned r, mkEnv (env_d e) w' (env_calls e ++ issued) (env_log e)) /\
    (issued = [] /\ r = None /\ w' = env_remote e \/
     issued = [CallStopInstance id force stopT] \/
     issued = [CallStartInstance id false startT]).
Proof.
  unfold updateInstanceState. hook_unfold.
  destruct (String.eqb cur desired).
  - exists None, (env_remote e), []. rewrite app_nil_r. destruct e; auto.
  - destruct (String.eqb_spec desired "stopped") as [-> | Hs].
    + cbn [String.eqb Ascii.eqb Bool.eqb].
      destruct (api_stopInstance conn id force stopT (env_remote e)) as [[err |] w'];
        eexists _, w', _; split; try reflexivity; auto.
    + destruct (String.eqb desired "running").
      * destruct (api_startInstance conn id false startT (env_remote e)) as [[err |] w'];
          eexists _, w', _; split; try reflexivity; auto.
      * exists None, (env_remote e), []. rewrite app_nil_r. destruct e; auto.
Qed.

(** X3: the declared schema validates [state] against exactly the two
    strings "running" and "stopped", case-sensitively; and for every value
    the validator accepts that differs from the current state,
    [updateInstanceState] issues exactly one call, a stop or a start. *)
Theorem resourceInstanceState_state_validator :
  exists field validate,
    Schema (resourceInstanceState conn stopT startT svc action resInstance
              resInstanceState) !! names.AttrState = Some field /\
    sch_ValidateFunc field = Some validate /\
    (forall v, validate v = true <-> v = "running" \/ v = "stopped") /\
    (forall v id cur force (e : Env W),
       validate v = true -> cur <> v ->
       exists c, isTransitionCall c = true /\
         env_calls (snd (reconcile' id cur v force e)) = env_calls e ++ [c]).
Proof.
  eexists _, _. split.
  { cbn [Schema resourceInstanceState].
    rewrite lookup_insert_ne by discriminate.
    rewrite lookup_insert_ne by discriminate.
    apply lookup_insert_eq. }
  split; [reflexivity |].
  - assert (Hiff : forall v,
      validation.StringInSlice
        [awstypes.InstanceStateNameRunning; awstypes.InstanceStateNameStopped] v = true
      <-> v = "running" \/ v = "stopped").
    { intros v. unfold validation.StringInSlice. cbn [existsb].
      rewrite !orb_true_iff, !String.eqb_eq. intuition discriminate. }
    split; [exact Hiff |].
    intros v id cur force e Hv Hne. apply Hiff in Hv.
    unfold updateInstanceState. hook_unfold.
    apply String.eqb_neq in Hne. rewrite Hne.
    destruct Hv as [-> | ->]; cbn [String.eqb Ascii.eqb Bool.eqb].
    + destruct (api_startInstance conn id false startT (env_remote e)) as [[err |] w'];
        now eexists.
    + destruct (api_stopInstance conn id force stopT (env_remote e)) as [[err |] w'];
        now eexists.
Qed.
End ReconcileMore.

(** X1 at the desired state "terminated". *)
Lemma updateInstanceState_other_desired_witness :
  Sim.updateInstanceState Inputs.id "running" "terminated" true
    (Sim.env Inputs.unchanged Inputs.running)
  = (Returned None, Sim.env Inputs.unchanged Inputs.running).
Proof.
  apply (updateInstanceState_other_desired Sim.conn Sim.InstanceStopTimeout
           Sim.InstanceStartTimeout Inputs.id "running" "terminated" true);
    discriminate.
Defined.

(** X3 at a running instance to be stopped. *)
Lemma resourceInstanceState_state_validator_witness :
  exists c, isTransitionCall c = true /\
    env_calls (snd (Sim.updateInstanceState Inputs.id "running" "stopped" true
                      (Sim.env Inputs.toStopped Inputs.running))) = [] ++ [c].
Proof.
  destruct (resourceInstanceState_state_validator Sim.conn Sim.InstanceStopTimeout
              Sim.InstanceStartTimeout "ec2" "reading" "Instance" "Instance State")
    as (field & validate & _ & _ & Hiff & Hone).
  apply (Hone "stopped" Inputs.id "running" true
           (Sim.env Inputs.toStopped Inputs.running)).
  - apply Hiff. now right.
  - discriminate.
Defined.

(** ** Create and Update, step by step *)

Section CreateUpdate.
Context {W : Type}.
Variable conn : EC2API W.
Variables stopT startT : Duration.
Variables svc action resInstance resInstanceState : string.

Local Abbreviation reconcile'' := (updateInstanceState conn stopT startT).
Local Abbreviation runRead := (resourceInstanceStateRead conn svc action resInstanceState).
Local Abbreviation runCreate :=
  (resourceInstanceStateCreate conn stopT startT svc action resInstance resInstanceState).
Local Abbreviation runUpdate :=
  (resourceInstanceStateUpdate conn stopT startT svc action resInstance resInstanceState).

Lemma updateInstanceState_error_called id cur desired force (e e2 : Env W) err :
  reconcile'' id cur desired force e = (Returned (Some err), e2) ->
  env_d e2 = env_d e /\
  exists c, isTransitionCall c = true /\ env_calls e2 = env_calls e ++ [c].
Proof.
  unfold updateInstanceState. hook_unfold.
  hook_cases; eqb_clean; intros [= <- <-]; cbn; (split; [reflexivity |]);
    eexists; (split; [| reflexivity]); reflexivity.
Qed.

(** X4: when the readiness wait of Create returns an error, whatever
    instance value comes with it (nil included), Create returns one error
    diagnostic naming the configured instance id and stops there: the wait
    is its only remote call and the resource data, the id included, is
    untouched. *)
Theorem resourceInstanceStateCreate_wait_error
    (e : Env W) (instanceId : string) (inst : option Instance) (err : error) (w' : W) :
  let d := env_d e in
  let t := schema.Timeout d schema.TimeoutCreate in
  schema.Get d names.AttrInstanceID = Some (VString instanceId) ->
  api_waitInstanceReady conn instanceId t (env_remote e) = ((inst, Some err), w') ->
  runCreate e =
    (Returned [mkDiagnostic SeverityError
                 (ProblemStandardMessage svc action resInstance instanceId err)],
     mkEnv d w' (env_calls e ++ [CallWaitInstanceReady instanceId t]) (env_log e)).
Proof.
  cbn zeta. intros Hid Hwait.
  unfold resourceInstanceStateCreate. hook_unfold.
  rewrite Hid. hook_simpl.
  now rewrite Hwait.
Qed.

(** X5: when the transition issued by Create fails, Create returns one error
    diagnostic carrying that error; the id is not set, no Read follows, and
    the remote calls are the wait and the failed transition. *)
Theorem resourceInstanceStateCreate_transition_error
    (e e2 : Env W) (instanceId desired : string) (inst : Instance)
    (st : InstanceState) (force : bool) (w1 : W) (err : error) :
  let d := env_d e in
  let t := schema.Timeout d schema.TimeoutCreate in
  schema.Get d names.AttrInstanceID = Some (VString instanceId) ->
  api_waitInstanceReady conn instanceId t (env_remote e) = ((Some inst, None), w1) ->
  State inst = Some st ->
  schema.Get d names.AttrState = Some (VString desired) ->
  schema.Get d "force" = Some (VBool force) ->
  reconcile'' instanceId (Name st) desired force
    (mkEnv d w1 (env_calls e ++ [CallWaitInstanceReady instanceId t]) (env_log e))
    = (Returned (Some err), e2) ->
  runCreate e = (Returned [mkDiagnostic SeverityError (FromErr err)], e2) /\
  env_d e2 = d /\
  exists c, isTransitionCall c = true /\
    env_calls e2 = env_calls e ++ [CallWaitInstanceReady instanceId t; c].
Proof.
  cbn zeta. intros Hid Hwait Hst Hdesired Hforce Hrec.
  split; [| apply updateInstanceState_error_called in Hrec as [Hd (c & Hc & Hcalls)]].
  - unfold resourceInstanceStateCreate. hook_unfold.
    rewrite Hid. hook_simpl.
    rewrite Hwait. hook_simpl.
    rewrite Hst. hook_simpl. rewrite Hdesired. hook_simpl.
    rewrite Hforce. hook_simpl.
    now rewrite Hrec.
  - split; [exact Hd |]. exists c. split; [exact Hc |].
    rewrite Hcalls. cbn. now rewrite <- app_assoc.
Qed.

(** X6: when the instance is observed already in the desired state, Create
    issues no transition: it sets the id to the configured instance id and
    is then exactly a Read; its remote calls are the wait and the Read's
    lookup. *)
Theorem resourceInstanceStateCreate_in_desired_state
    (e : Env W) (instanceId : string) (inst : Instance) (st : InstanceState)
    (force : bool) (w1 : W) :
  let d := env_d e in
  let t := schema.Timeout d schema.TimeoutCreate in
  schema.Get d names.AttrInstanceID = Some (VString instanceId) ->
  api_waitInstanceReady conn instanceId t (env_remote e) = ((Some inst, None), w1) ->
  State inst = Some st ->
  schema.Get d names.AttrState = Some (VString (Name st)) ->
  schema.Get d "force" = Some (VBool force) ->
  runCreate e =
    runRead (mkEnv (schema.SetId d instanceId) w1
               (env_calls e ++ [CallWaitInstanceReady instanceId t]) (env_log e)) /\
  env_calls (snd (runCreate e)) =
    env_calls e ++ [CallWaitInstanceReady instanceId t;
                    CallFindInstanceStateByID instanceId].
Proof.
  cbn zeta. intros Hid Hwait Hst Hdesired Hforce.
  assert (runCreate e =
    runRead (mkEnv (schema.SetId (env_d e) instanceId) w1
               (env_calls e ++
                [CallWaitInstanceReady instanceId
                   (schema.Timeout (env_d e) schema.TimeoutCreate)]) (env_log e)))
    as Hrun.
  { unfold resourceInstanceStateCreate, updateInstanceState. hook_unfold.
    rewrite Hid. hook_simpl.
    rewrite Hwait. hook_simpl.
    rewrite Hst. hook_simpl. rewrite Hdesired. hook_simpl.
    rewrite Hforce. hook_simpl.
    rewrite String.eqb_refl. hook_simpl.
    rewrite Hid. hook_simpl.
    now destruct (runRead _) as [[rd | p] e']. }
  split; [exact Hrun |].
  rewrite Hrun, Read_calls. cbn. now rewrite <- app_assoc.
Qed.

(** X7: a Create that returns without diagnostics on a new resource has set
    the id to the configured instance id, has refreshed [instance_id] to that
    id and [state] to a state name, and its last remote call is the lookup of
    that id. *)
Theorem resourceInstanceStateCreate_success_id (e e' : Env W) (instanceId : string) :
  schema.Get (env_d e) names.AttrInstanceID = Some (VString instanceId) ->
  schema.IsNewResource (env_d e) = true ->
  runCreate e = (Returned [], e') ->
  schema.Id (env_d e') = instanceId /\
  schema.Get (env_d e') names.AttrInstanceID = Some (VString instanceId) /\
  (exists name, schema.Get (env_d e') names.AttrState = Some (VString name)) /\
  exists before, env_calls e' = before ++ [CallFindInstanceStateByID instanceId].
Proof.
  intros Hid Hnew.
  unfold resourceInstanceStateCreate, resourceInstanceStateRead, updateInstanceState.
  unfold schema.IsNewResource in *. hook_unfold.
  repeat (hook_simpl;
          cbn [schema.SetId schema.Id schema.IsNewResource rd_isNew rd_id];
          rewrite ?Hid, ?Hnew;
          cbn [negb andb create.AppendDiagError sdkdiag.AppendFromErr app];
          match goal with
          | |- context [match ?x with _ => _ end] =>
              lazymatch x with
              | context [match _ with _ => _ end] => fail
              | _ => destruct x eqn:?
              end
          end);
    intros H; try discriminate H;
    apply (f_equal snd) in H; cbn [snd] in H; subst e'; hook_simpl;
    (split; [reflexivity |]);
    (split; [rewrite !Get_Set_ne by discriminate; apply Get_Set_eq |]);
    (split; [eexists; rewrite Get_Set_ne by discriminate; apply Get_Set_eq |]);
    eexists; reflexivity.
Qed.

Lemma Update_changed_run
    (e : Env W) (inst : option Instance) (w1 : W) (o n : string) (force : bool) :
  let d := env_d e in
  let id := schema.Id d in
  let t := schema.Timeout d schema.TimeoutUpdate in
  api_waitInstanceReady conn id t (env_remote e) = ((inst, None), w1) ->
  schema.GetChange d names.AttrState = (Some (VString o), Some (VString n)) ->
  o <> n ->
  schema.Get d "force" = Some (VBool force) ->
  runUpdate e =
    match reconcile'' id o n force
            (mkEnv d w1 (env_calls e ++ [CallWaitInstanceReady id t]) (env_log e)) with
    | (Returned None, e2) => runRead e2
    | (Returned (Some err), e2) =>
        (Returned [mkDiagnostic SeverityError (FromErr err)], e2)
    | (Panicked p, e2) => (Panicked p, e2)
    end.
Proof.
  cbn zeta. intros Hwait Hchange Hne Hforce.
  unfold resourceInstanceStateUpdate. hook_unfold.
  rewrite Hwait. hook_simpl.
  unfold schema.HasChange. rewrite Hchange.
  rewrite bool_decide_eq_false_2 by congruence.
  cbn [negb]. hook_simpl. rewrite Hchange. hook_simpl.
  rewrite Hforce. hook_simpl.
  destruct (reconcile'' _ _ _ _ _) as [[[err |] | p] e2]; try reflexivity.
  hook_simpl. now destruct (runRead e2) as [[rd | p] e3].
Qed.

(** X8: when the declared [state] changed to "stopped" or "running", Update
    reconciles from the previously declared state, whatever instance the
    wait observed: after the wait it issues the stop (with the stored force)
    or the start (unforced), then the Read's lookup if that call succeeded;
    if the call failed it returns that error as its one diagnostic and
    leaves the resource data untouched. *)
Theorem resourceInstanceStateUpdate_changed
    (e : Env W) (inst : option Instance) (w1 : W) (o n : string) (force : bool) :
  let d := env_d e in
  let id := schema.Id d in
  let t := schema.Timeout d schema.TimeoutUpdate in
  let c := if String.eqb n "stopped" then CallStopInstance id force stopT
           else CallStartInstance id false startT in
  let failed := fst (if String.eqb n "stopped"
                     then api_stopInstance conn id force stopT w1
                     else api_startInstance conn id false startT w1) in
  api_waitInstanceReady conn id t (env_remote e) = ((inst, None), w1) ->
  schema.GetChange d names.AttrState = (Some (VString o), Some (VString n)) ->
  o <> n ->
  n = "stopped" \/ n = "running" ->
  schema.Get d "force" = Some (VBool force) ->
  env_calls (snd (runUpdate e)) =
    env_calls e ++ [CallWaitInstanceReady id t; c] ++
      match failed with
      | Some _ => []
      | None => [CallFindInstanceStateByID id]
      end /\
  (forall err, failed = Some err ->
     fst (runUpdate e) = Returned [mkDiagnostic SeverityError (FromErr err)] /\
     env_d (snd (runUpdate e)) = d).
Proof.
  cbn zeta. intros Hwait Hchange Hne Hn Hforce.
  rewrite (Update_changed_run e inst w1 o n force Hwait Hchange Hne Hforce).
  unfold updateInstanceState. hook_unfold.
  apply String.eqb_neq in Hne. rewrite Hne.
  destruct Hn as [-> | ->]; cbn [String.eqb Ascii.eqb Bool.eqb]; hook_simpl.
  - destruct (api_stopInstance conn _ force stopT w1) as [[err |] w2]; hook_simpl.
    + split; [rewrite <- !app_assoc; reflexivity |]. now intros ? [= <-].
    + split; [| discriminate]. rewrite Read_calls. hook_simpl.
      rewrite <- !app_assoc. reflexivity.
  - destruct (api_startInstance conn _ false startT w1) as [[err |] w2]; hook_simpl.
    + split; [rewrite <- !app_assoc; reflexivity |]. now intros ? [= <-].
    + split; [| discriminate]. rewrite Read_calls. hook_simpl.
      rewrite <- !app_assoc. reflexivity.
Qed.
End CreateUpdate.

(** ** What every hook preserves *)

Section KeepsPlan.
Context {W : Type}.

Lemma same_plan_refl d : same_plan d d.
Proof. now repeat split. Qed.

Lemma same_plan_trans d1 d2 d3 :
  same_plan d1 d2 -> same_plan d2 d3 -> same_plan d1 d3.
Proof.
  intros (H1 & H2 & H3 & H4) (K1 & K2 & K3 & K4).
  repeat split; congruence.
Qed.

Lemma keeps_ret {A} (a : A) : keeps_plan (@ret W A a).
Proof. intros e. apply same_plan_refl. Qed.

Lemma keeps_panic {A} (p : Panic) : keeps_plan (@panic W A p).
Proof. intros e. apply same_plan_refl. Qed.

Lemma keeps_bind {A B} (m : M W A) (k : A -> M W B) :
  keeps_plan m -> (forall a, keeps_plan (k a)) -> keeps_plan (bind m k).
Proof.
  intros Hm Hk e. unfold bind. specialize (Hm e).
  destruct (m e) as [[a | p] e1]; cbn in *; [| exact Hm].
  eapply same_plan_trans; [exact Hm | apply Hk].
Qed.

Lemma keeps_getData : keeps_plan (@getData W).
Proof. intros e. apply same_plan_refl. Qed.

Lemma keeps_modifyData f :
  (forall d, same_plan d (f d)) -> keeps_plan (@modifyData W f).
Proof. intros Hf e. apply Hf. Qed.

Lemma keeps_logEntry l : keeps_plan (@logEntry W l).
Proof. intros e. apply same_plan_refl. Qed.

Lemma keeps_remoteCall {A} c (f : W -> A * W) : keeps_plan (remoteCall c f).
Proof.
  intros e. unfold remoteCall. destruct (f (env_remote e)). apply same_plan_refl.
Qed.

Lemma keeps_if {A} (b : bool) (m1 m2 : M W A) :
  keeps_plan m1 -> keeps_plan m2 -> keeps_plan (if b then m1 else m2).
Proof. now destruct b. Qed.

Lemma keeps_assertString v : keeps_plan (@assertString W v).
Proof. destruct v as [[s | b] |]; cbn; auto using keeps_ret, keeps_panic. Qed.

Lemma keeps_assertBool v : keeps_plan (@assertBool W v).
Proof. destruct v as [[s | b] |]; cbn; auto using keeps_ret, keeps_panic. Qed.

Lemma keeps_deref {A} (p : option A) : keeps_plan (@deref W A p).
Proof. destruct p; cbn; auto using keeps_ret, keeps_panic. Qed.

Lemma keeps_Set key v : keeps_plan (@d_Set W key v).
Proof. apply keeps_modifyData. intros d. now repeat split. Qed.

Lemma keeps_SetId v : keeps_plan (@d_SetId W v).
Proof. apply keeps_modifyData. intros d. now repeat split. Qed.
End KeepsPlan.

Create HintDb keeps discriminated.
#[export] Hint Resolve keeps_ret keeps_panic keeps_getData keeps_logEntry
  keeps_remoteCall keeps_assertString keeps_assertBool keeps_deref keeps_Set
  keeps_SetId : keeps.

Ltac keeps_step :=
  match goal with
  | |- keeps_plan (bind _ _) => apply keeps_bind; [| intros ?]
  | |- keeps_plan (if _ then _ else _) => apply keeps_if
  | |- keeps_plan (match ?x with _ => _ end) => destruct x
  | |- keeps_plan _ => solve [auto with keeps]
  end.

Ltac solve_keeps := repeat keeps_step.

Section Invariants.
Context {W : Type}.
Variable conn : EC2API W.
Variables stopT startT : Duration.
Variables svc action resInstance resInstanceState : string.

Local Abbreviation recon := (updateInstanceState conn stopT startT).
Local Abbreviation doRead := (resourceInstanceStateRead conn svc action resInstanceState).
Local Abbreviation doCreate :=
  (resourceInstanceStateCreate conn stopT startT svc action resInstance resInstanceState).
Local Abbreviation doUpdate :=
  (resourceInstanceStateUpdate conn stopT startT svc action resInstance resInstanceState).
Local Abbreviation doDelete := (@resourceInstanceStateDelete W svc resInstanceState).

Lemma keeps_updateInstanceState id cur desired force :
  keeps_plan (recon id cur desired force).
Proof.
  unfold updateInstanceState, stopInstance, startInstance. solve_keeps.
Qed.

Lemma keeps_resourceInstanceStateRead : keeps_plan doRead.
Proof.
  unfold resourceInstanceStateRead, findInstanceStateByID, d_Id, d_Get,
    d_IsNewResource.
  solve_keeps.
Qed.

Lemma same_plan_reads d d' :
  same_plan d d' ->
  (forall k, schema.GetChange d' k = schema.GetChange d k) /\
  (forall k, schema.HasChange d' k = schema.HasChange d k) /\
  (forall k, schema.Timeout d' k = schema.Timeout d k).
Proof.
  intros (Hs & Hp & Ht & _).
  unfold schema.HasChange, schema.GetChange, schema.Timeout.
  rewrite Hs, Hp, Ht. now repeat split.
Qed.

(** X9: in every outcome, panics included, each of the four hooks leaves the
    prior state, the planned values, the timeouts and the new-resource mark
    of the resource data as they were; so [GetChange], [HasChange] and
    [Timeout] answer after a hook as they did before it. *)
Theorem hooks_keep_plan (e : Env W) :
  Forall (fun hook : M W Diagnostics =>
            let d' := env_d (snd (hook e)) in
            same_plan (env_d e) d' /\
            (forall k, schema.GetChange d' k = schema.GetChange (env_d e) k) /\
            (forall k, schema.HasChange d' k = schema.HasChange (env_d e) k) /\
            (forall k, schema.Timeout d' k = schema.Timeout (env_d e) k))
    [doCreate; doRead; doUpdate; doDelete].
Proof.
  assert (Hall : Forall (fun hook : M W Diagnostics => keeps_plan hook)
                   [doCreate; doRead; doUpdate; doDelete]).
  { constructor; [| constructor; [| constructor; [| constructor; [| constructor]]]].
    - unfold resourceInstanceStateCreate, waitInstanceReady, d_Id, d_Get, d_Timeout.
      pose proof keeps_updateInstanceState. pose proof keeps_resourceInstanceStateRead.
      solve_keeps; auto.
    - apply keeps_resourceInstanceStateRead.
    - unfold resourceInstanceStateUpdate, waitInstanceReady, d_Id, d_Get, d_Timeout,
        d_HasChange, d_GetChange.
      pose proof keeps_updateInstanceState. pose proof keeps_resourceInstanceStateRead.
      solve_keeps; auto.
    - unfold resourceInstanceStateDelete, d_Id. solve_keeps. }
  eapply Forall_impl; [exact Hall |].
  intros hook Hk. cbn zeta. split; [apply Hk |]. apply same_plan_reads, Hk.
Qed.

Lemma Read_diagnostics (e e' : Env W) diags :
  doRead e = (Returned diags, e') ->
  diags = [] \/ exists s, diags = [mkDiagnostic SeverityError s].
Proof.
  unfold resourceInstanceStateRead. hook_unfold.
  hook_cases; intros [= <- <-]; cbn; eauto.
Qed.

(** X10: whenever a hook returns, it returns either no diagnostic or exactly
    one diagnostic of error severity; no hook ever returns a warning or
    accumulates several diagnostics. *)
Theorem hooks_diagnostics_shape (e : Env W) :
  Forall (fun hook : M W Diagnostics =>
            forall diags, fst (hook e) = Returned diags ->
              diags = [] \/ exists s, diags = [mkDiagnostic SeverityError s])
    [doCreate; doRead; doUpdate; doDelete].
Proof.
  constructor; [| constructor; [| constructor; [| constructor; [| constructor]]]];
    intros diags.
  - unfold resourceInstanceStateCreate. hook_unfold.
    hook_cases; cbn; intros [= <-]; eauto;
      eapply Read_diagnostics; eassumption.
  - destruct (doRead e) as [o e'] eqn:Hrun. cbn. intros ->.
    eapply Read_diagnostics; eassumption.
  - unfold resourceInstanceStateUpdate. hook_unfold.
    hook_cases; cbn; intros [= <-]; eauto;
      eapply Read_diagnostics; eassumption.
  - unfold resourceInstanceStateDelete. hook_unfold. cbn. intros [= <-]. now left.
Qed.

Lemma updateInstanceState_issued id cur desired force (e : Env W) :
  exists issued,
    env_calls (snd (recon id cur desired force e)) = env_calls e ++ issued /\
    (issued = [] \/ exists c, isTransitionCall c = true /\ issued = [c]).
Proof.
  unfold updateInstanceState. hook_unfold.
  hook_cases; eqb_clean; cbn;
    solve [ exists []; rewrite app_nil_r; auto
          | eexists; split; [reflexivity |]; right; eexists; split; [| reflexivity];
            reflexivity ].
Qed.

(** Replace the final call records met on a path of Create or Update by what
    reconciliation and Read are known to append. *)
Ltac use_calls :=
  repeat match goal with
         | H : updateInstanceState ?c ?a ?b ?i ?x ?y ?f ?E = (_, _) |- _ =>
             let l := fresh "l" in
             let Hl := fresh "Hl" in
             let Hs := fresh "Hs" in
             destruct (updateInstanceState_issued i x y f E) as (l & Hl & Hs);
             rewrite H in Hl; cbn [snd env_calls] in Hl; clear H
         | H : resourceInstanceStateRead ?c ?s ?a ?r ?E = (_, _) |- _ =>
             let Hr := fresh "Hr" in
             pose proof (Read_calls c s a r E) as Hr;
             rewrite H in Hr; cbn [snd env_calls env_d] in Hr; clear H
         end.

Ltac close_calls :=
  cbn [snd env_calls];
  repeat match goal with
         | H : env_calls _ = _ |- _ => rewrite H; clear H
         end;
  rewrite <- ?app_assoc;
  first
    [ exists []; split; [symmetry; apply app_nil_r | cbn; lia]
    | eexists; (split; [reflexivity |]);
      repeat match goal with
             | H : _ \/ _ |- _ => destruct H as [-> | (? & ? & ->)]
             end;
      unfold transitions; cbn [app length List.filter isTransitionCall];
      repeat match goal with
             | H : isTransitionCall _ = true |- _ => rewrite H
             end;
      cbn [app length]; split; lia ].

(** X11: in every outcome, each hook issues at most three remote calls, and
    at most one of them is a stop or a start. *)
Theorem hooks_call_bounds (e : Env W) :
  Forall (fun hook : M W Diagnostics =>
            exists issued,
              env_calls (snd (hook e)) = env_calls e ++ issued /\
              (length issued <= 3)%nat /\
              (length (transitions issued) <= 1)%nat)
    [doCreate; doRead; doUpdate; doDelete].
Proof.
  constructor; [| constructor; [| constructor; [| constructor; [| constructor]]]].
  - unfold resourceInstanceStateCreate. hook_unfold.
    hook_cases; use_calls; close_calls.
  - rewrite Read_calls. exists [CallFindInstanceStateByID (schema.Id (env_d e))].
    split; [reflexivity |]. cbn. lia.
  - unfold resourceInstanceStateUpdate. hook_unfold.
    hook_cases; use_calls; close_calls.
  - exists []. unfold resourceInstanceStateDelete. hook_unfold. cbn.
    rewrite app_nil_r. split; [reflexivity |]. lia.
Qed.
End Invariants.

(** ** Refreshing twice *)

Section ReadTwice.
Context {W : Type}.
Variable conn : EC2API W.
Variables svc action resInstanceState : string.

Local Abbreviation refresh := (resourceInstanceStateRead conn svc action resInstanceState).

(** The resource data after a Read that found the instance in state [name]. *)
Local Abbreviation refreshed d name b :=
  (schema.Set_
     (schema.Set_ (schema.Set_ d names.AttrInstanceID (VString (schema.Id d)))
        names.AttrState (VString name))
     "force" (VBool b)).

Lemma Read_found_run (e : Env W) (st : InstanceState) (b : bool) (w' : W) :
  api_findInstanceStateByID conn (schema.Id (env_d e)) (env_remote e)
    = ((Some st, None), w') ->
  schema.Get (env_d e) "force" = Some (VBool b) ->
  refresh e =
    (Returned [],
     mkEnv (refreshed (env_d e) (Name st) b) w'
       (env_calls e ++ [CallFindInstanceStateByID (schema.Id (env_d e))])
       (env_log e)).
Proof.
  intros Hfind Hforce.
  unfold resourceInstanceStateRead. hook_unfold.
  rewrite Hfind. hook_simpl. cbn [tfresource.NotFound].
  rewrite andb_false_r. hook_simpl.
  rewrite !Get_Set_ne by discriminate. rewrite Hforce. reflexivity.
Qed.

Lemma refreshed_twice d name b :
  refreshed (refreshed d name b) name b = refreshed d name b.
Proof.
  unfold schema.Set_, schema.Id. cbn. f_equal.
  apply map_eq. intros k.
  rewrite !lookup_insert. repeat case_decide; reflexivity.
Qed.

(** X12: refreshing is idempotent while the remote state is stable: when a
    Read finds the instance and a second Read right after it finds the same
    state, the second Read returns no diagnostics and leaves the resource
    data exactly as the first one left it. *)
Theorem resourceInstanceStateRead_idempotent
    (e : Env W) (st : InstanceState) (b : bool) :
  let id := schema.Id (env_d e) in
  let e1 := snd (refresh e) in
  fst (api_findInstanceStateByID conn id (env_remote e)) = (Some st, None) ->
  fst (api_findInstanceStateByID conn id (env_remote e1)) = (Some st, None) ->
  schema.Get (env_d e) "force" = Some (VBool b) ->
  fst (refresh e1) = Returned [] /\
  env_d (snd (refresh e1)) = env_d e1 /\
  env_calls (snd (refresh e1)) =
    env_calls e ++ [CallFindInstanceStateByID id; CallFindInstanceStateByID id].
Proof.
  cbn zeta. intros Hfind1 Hfind2 Hforce.
  destruct (api_findInstanceStateByID conn (schema.Id (env_d e)) (env_remote e))
    as [r1 w1] eqn:Hrun1.
  cbn in Hfind1. subst r1.
  rewrite (Read_found_run e st b w1 Hrun1 Hforce) in *.
  cbn [snd env_remote] in *.
  destruct (api_findInstanceStateByID conn (schema.Id (env_d e)) w1)
    as [r2 w2] eqn:Hrun2.
  cbn in Hfind2. subst r2.
  erewrite Read_found_run;
    [| cbn [env_d env_remote]; exact Hrun2
     | cbn [env_d]; apply Get_Set_eq ].
  cbn [fst snd env_d env_calls]. repeat split.
  - apply refreshed_twice.
  - now rewrite <- app_assoc.
Qed.
End ReadTwice.

(** ** The further properties on concrete inputs *)

(** X4 on an instance that stays pending: the wait times out. *)
Lemma resourceInstanceStateCreate_wait_error_witness :
  Sim.Create (Sim.env Inputs.fresh Inputs.pending) =
    (Returned [mkDiagnostic SeverityError
                 (ProblemStandardMessage "ec2" "reading" "Instance" Inputs.id
                    Sim.errTimeout)],
     mkEnv Inputs.fresh Inputs.pending
       [CallWaitInstanceReady Inputs.id 600000000000] []).
Proof.
  apply (resourceInstanceStateCreate_wait_error Sim.conn Sim.InstanceStopTimeout
           Sim.InstanceStartTimeout "ec2" "reading" "Instance" "Instance State"
           (Sim.env Inputs.fresh Inputs.pending) Inputs.id None Sim.errTimeout
           Inputs.pending);
    reflexivity.
Defined.

(** X5 on a stopped instance to be created running, when starting fails. *)
Lemma resourceInstanceStateCreate_transition_error_witness :
  Faulty.Create (Sim.env Inputs.fresh Inputs.stopped) =
    (Returned [mkDiagnostic SeverityError (FromErr Sim.errAPI)],
     mkEnv Inputs.fresh Inputs.stopped
       [CallWaitInstanceReady Inputs.id 600000000000;
        CallStartInstance Inputs.id false 600000000000] []).
Proof.
  apply (resourceInstanceStateCreate_transition_error Faulty.conn
           Sim.InstanceStopTimeout Sim.InstanceStartTimeout "ec2" "reading"
           "Instance" "Instance State"
           (Sim.env Inputs.fresh Inputs.stopped)
           (mkEnv Inputs.fresh Inputs.stopped
              [CallWaitInstanceReady Inputs.id 600000000000;
               CallStartInstance Inputs.id false 600000000000] [])
           Inputs.id "running"
           (mkInstance (Some Inputs.id) (Some (mkInstanceState "stopped")))
           (mkInstanceState "stopped") true Inputs.stopped Sim.errAPI);
    reflexivity.
Defined.

(** X6 on a running instance to be created running. *)
Lemma resourceInstanceStateCreate_in_desired_state_witness :
  env_calls (snd (Sim.Create (Sim.env Inputs.fresh Inputs.running))) =
    [] ++ [CallWaitInstanceReady Inputs.id 600000000000;
           CallFindInstanceStateByID Inputs.id].
Proof.
  apply (resourceInstanceStateCreate_in_desired_state Sim.conn
           Sim.InstanceStopTimeout Sim.InstanceStartTimeout "ec2" "reading"
           "Instance" "Instance State"
           (Sim.env Inputs.fresh Inputs.running) Inputs.id
           (mkInstance (Some Inputs.id) (Some (mkInstanceState "running")))
           (mkInstanceState "running") true Inputs.running);
    reflexivity.
Defined.

(** X7 on a stopped instance created running. *)
Lemma resourceInstanceStateCreate_success_id_witness :
  schema.Id (env_d (snd (Sim.Create (Sim.env Inputs.fresh Inputs.stopped)))) = Inputs.id /\
  schema.Get (env_d (snd (Sim.Create (Sim.env Inputs.fresh Inputs.stopped))))
    names.AttrInstanceID = Some (VString Inputs.id).
Proof.
  destruct (resourceInstanceStateCreate_success_id Sim.conn Sim.InstanceStopTimeout
              Sim.InstanceStartTimeout "ec2" "reading" "Instance" "Instance State"
              (Sim.env Inputs.fresh Inputs.stopped)
              (snd (Sim.Create (Sim.env Inputs.fresh Inputs.stopped)))
              Inputs.id)
    as (Hid & Hattr & _); [reflexivity | reflexivity | reflexivity |].
  split; [exact Hid | exact Hattr].
Defined.

(** X8 on a resource redeclared from running to stopped whose instance is
    observed already stopped: the stop is issued all the same. *)
Lemma resourceInstanceStateUpdate_changed_witness :
  env_calls (snd (Sim.Update (Sim.env Inputs.toStopped Inputs.stopped))) =
    [] ++ [CallWaitInstanceReady Inputs.id 600000000000;
           CallStopInstance Inputs.id true 600000000000] ++
          [CallFindInstanceStateByID Inputs.id].
Proof.
  apply (resourceInstanceStateUpdate_changed Sim.conn Sim.InstanceStopTimeout
           Sim.InstanceStartTimeout "ec2" "reading" "Instance" "Instance State"
           (Sim.env Inputs.toStopped Inputs.stopped)
           (Some (mkInstance (Some Inputs.id) (Some (mkInstanceState "stopped"))))
           Inputs.stopped "running" "stopped" true);
    [reflexivity | reflexivity | discriminate | now left | reflexivity].
Defined.

(** X12 on a resource declared running whose instance stays stopped. *)
Lemma resourceInstanceStateRead_idempotent_witness :
  fst (Sim.Read (snd (Sim.Read (Sim.env Inputs.unchanged Inputs.stopped)))) = Returned [] /\
  env_d (snd (Sim.Read (snd (Sim.Read (Sim.env Inputs.unchanged Inputs.stopped))))) =
    env_d (snd (Sim.Read (Sim.env Inputs.unchanged Inputs.stopped))).
Proof.
  destruct (resourceInstanceStateRead_idempotent Sim.conn "ec2" "reading"
              "Instance State" (Sim.env Inputs.unchanged Inputs.stopped)
              (mkInstanceState "stopped") false)
    as (Hret & Hd & _); [reflexivity | reflexivity | reflexivity |].
  split; [exact Hret | exact Hd].
Defined.

(** ** Update around the readiness wait *)

Section UpdateWait.
Context {W : Type}.
Variable conn : EC2API W.
Variables stopT startT : Duration.
Variables svc action resInstance resInstanceState : string.

Local Abbreviation update :=
  (resourceInstanceStateUpdate conn stopT startT svc action resInstance resInstanceState).

(** X13: when the readiness wait of Update returns an error together with an
    instance, Update returns one error diagnostic that names the id carried
    by that instance (the empty string when the instance carries none), not
    the resource's id; the wait is its only remote call, and the resource
    data is untouched. *)
Theorem resourceInstanceStateUpdate_wait_error_instance
    (e : Env W) (inst : Instance) (err : error) (w' : W) :
  let d := env_d e in
  let t := schema.Timeout d schema.TimeoutUpdate in
  api_waitInstanceReady conn (schema.Id d) t (env_remote e) = ((Some inst, Some err), w') ->
  update e =
    (Returned [mkDiagnostic SeverityError
                 (ProblemStandardMessage svc action resInstance
                    (aws.ToString (InstanceId inst)) err)],
     mkEnv d w' (env_calls e ++ [CallWaitInstanceReady (schema.Id d) t]) (env_log e)).
Proof.
  cbn zeta. intros Hwait.
  unfold resourceInstanceStateUpdate. hook_unfold.
  now rewrite Hwait.
Qed.

(** X14: when the declared [state] has not changed and the readiness wait
    returns no error, Update is exactly a Read run after the wait: same
    diagnostics, same panics, same final environment. *)
Theorem resourceInstanceStateUpdate_unchanged_is_read
    (e : Env W) (inst : option Instance) (w1 : W) :
  let d := env_d e in
  let t := schema.Timeout d schema.TimeoutUpdate in
  schema.HasChange d names.AttrState = false ->
  api_waitInstanceReady conn (schema.Id d) t (env_remote e) = ((inst, None), w1) ->
  update e =
    resourceInstanceStateRead conn svc action resInstanceState
      (mkEnv d w1 (env_calls e ++ [CallWaitInstanceReady (schema.Id d) t]) (env_log e)).
Proof.
  cbn zeta. intros Hsame Hwait.
  unfold resourceInstanceStateUpdate. hook_unfold.
  rewrite Hwait. hook_simpl. rewrite Hsame. hook_simpl.
  now destruct (resourceInstanceStateRead _ _ _ _ _) as [[rd | p] e2].
Qed.
End UpdateWait.

(** X13 on a terminated instance: the wait fails and hands the instance back. *)
Lemma resourceInstanceStateUpdate_wait_error_instance_witness :
  Unexpected.Update (Sim.env Inputs.unchanged Unexpected.terminated) =
    (Returned [mkDiagnostic SeverityError
                 (ProblemStandardMessage "ec2" "reading" "Instance" Inputs.id
                    Unexpected.errState)],
     mkEnv Inputs.unchanged Unexpected.terminated
       [CallWaitInstanceReady Inputs.id 600000000000] []).
Proof.
  apply (resourceInstanceStateUpdate_wait_error_instance Unexpected.conn
           Sim.InstanceStopTimeout Sim.InstanceStartTimeout "ec2" "reading"
           "Instance" "Instance State"
           (Sim.env Inputs.unchanged Unexpected.terminated)
           (mkInstance (Some Inputs.id) (Some (mkInstanceState "terminated")))
           Unexpected.errState Unexpected.terminated).
  reflexivity.
Defined.

(** X14 on an unchanged resource whose instance is running. *)
Lemma resourceInstanceStateUpdate_unchanged_is_read_witness :
  Sim.Update (Sim.env Inputs.unchanged Inputs.running) =
    Sim.Read (mkEnv Inputs.unchanged Inputs.running
                [CallWaitInstanceReady Inputs.id 600000000000] []).
Proof.
  apply (resourceInstanceStateUpdate_unchanged_is_read Sim.conn
           Sim.InstanceStopTimeout Sim.InstanceStartTimeout "ec2" "reading"
           "Instance" "Instance State"
           (Sim.env Inputs.unchanged Inputs.running)
           (Some (mkInstance (Some Inputs.id) (Some (mkInstanceState "running"))))
           Inputs.running);
    reflexivity.
Defined.

(** X10 on a Create whose wait times out: one error diagnostic. *)
Lemma hooks_diagnostics_shape_witness :
  [mkDiagnostic SeverityError
     (ProblemStandardMessage "ec2" "reading" "Instance" Inputs.id Sim.errTimeout)] = [] \/
  exists s,
    [mkDiagnostic SeverityError
       (ProblemStandardMessage "ec2" "reading" "Instance" Inputs.id Sim.errTimeout)]
    = [mkDiagnostic SeverityError s].
Proof.
  apply (Forall_inv
           (hooks_diagnostics_shape Sim.conn Sim.InstanceStopTimeout
              Sim.InstanceStartTimeout "ec2" "reading" "Instance" "Instance State"
              (Sim.env Inputs.fresh Inputs.pending))).
  reflexivity.
Defined.
